(** * HCXEmbeddings: the HyperClovaX embedding adapter

    A shallow embedding of
    [src/langchain_hcx/embeddings/hyperclova_embedding.py].

    The adapter is a class with one validator, two request helpers
    ([_send_request] over [http.client], [_asend_request] over
    [aiohttp]), two loops over them and four public methods.  Python
    values are an inductive type, exceptions are an error result, and
    the network is an explicit log of the calls made to the HTTP
    libraries, answered by a provider that may depend on the history. *)

From Stdlib Require Import Floats.PrimFloat Strings.Ascii.
From stdpp Require Import base option list strings pretty gmap.

Set Warnings "-inexact-float,-register-all".
Local Open Scope string_scope.
Local Open Scope list_scope.
Local Open Scope stdpp_scope.

(** ** Python values *)

(** The values that [json.loads] produces and [json.dumps] accepts; the
    argument [messages] of the request helpers ranges over them too
    (Python does not enforce the annotation [Union[str, Dict[str, str]]]).
    A [dict] keeps its items in insertion order; its keys are pairwise
    distinct. *)
Inductive pyval : Type :=
| PyNone
| PyBool (b : bool)
| PyInt (n : Z)
| PyFloat (x : float)
| PyStr (s : string)
| PyList (items : list pyval)
| PyDict (items : list (string * pyval)).

(** The exceptions that the module raises or lets through. *)
Inductive exn : Type :=
| TypeError (msg : string)
| ValueError (msg : string)
| KeyError (key : string)
| IndexError (msg : string)
| JSONDecodeError
| TransportError (detail : string)
| Exception (msg : string).

Inductive Outcome (A : Type) : Type :=
| Return (a : A)
| Raise (e : exn).
Arguments Return {A} a.
Arguments Raise {A} e.

#[global] Instance Outcome_ret : MRet Outcome := fun A a => Return a.
#[global] Instance Outcome_bind : MBind Outcome := fun A B f m =>
  match m with
  | Return a => f a
  | Raise e => Raise e
  end.

Definition isinstance_str (v : pyval) : bool :=
  match v with PyStr _ => true | _ => false end.

Definition isinstance_dict (v : pyval) : bool :=
  match v with PyDict _ => true | _ => false end.

(** [d[key]] on the items of a dict. *)
Fixpoint dict_get (items : list (string * pyval)) (key : string) : option pyval :=
  match items with
  | [] => None
  | (k, v) :: rest => if String.eqb k key then Some v else dict_get rest key
  end.

(** The subscription [obj[key]] with a [str] key. *)
Definition getitem (obj : pyval) (key : string) : Outcome pyval :=
  match obj with
  | PyDict items =>
      match dict_get items key with
      | Some v => Return v
      | None => Raise (KeyError key)
      end
  | PyList _ => Raise (TypeError "list indices must be integers or slices, not str")
  | PyStr _ => Raise (TypeError "string indices must be integers, not 'str'")
  | PyNone => Raise (TypeError "'NoneType' object is not subscriptable")
  | PyBool _ => Raise (TypeError "'bool' object is not subscriptable")
  | PyInt _ => Raise (TypeError "'int' object is not subscriptable")
  | PyFloat _ => Raise (TypeError "'float' object is not subscriptable")
  end.

(** [v == s] for a [str] literal [s]: only an equal [str] compares equal. *)
Definition eq_str (v : pyval) (s : string) : bool :=
  match v with
  | PyStr s' => String.eqb s' s
  | _ => false
  end.

(** [l[i]] on a list, for an index [i >= 0]. *)
Definition list_getitem {A : Type} (l : list A) (i : nat) : Outcome A :=
  match l !! i with
  | Some a => Return a
  | None => Raise (IndexError "list index out of range")
  end.

(** ** The network *)

(** One call into an HTTP library, with the arguments the source passes:
    [HTTPSConnection(host).request(method, url, body, headers=headers)]
    followed by [getresponse().read().decode('utf-8')], and
    [ClientSession().post(url, data=data, headers=headers)] followed by
    [response.text()]. *)
Inductive HttpCall : Type :=
| HTTPSConnection_request
    (host method url body : string) (headers : list (string * string))
| ClientSession_post
    (url data : string) (headers : list (string * string)).

(** What comes back: the decoded text of the response body, or a failure
    of the transport. *)
Inductive NetReply : Type :=
| Reply (text : string)
| Failure (detail : string).

(** The calls made so far, oldest first. *)
Abbreviation World := (list HttpCall).

(** What the module imports and does not define: the [json] codec,
    [str()] on a parsed value, and the provider at the other end of the
    wire, whose answer may depend on the calls it has seen. *)
Class Runtime : Type := {
  json_dumps : pyval -> string;
  json_loads : string -> option pyval;
  py_str : pyval -> string;
  provider : World -> HttpCall -> NetReply
}.

(** ** Effects: a state and error monad over the log *)

Definition M (A : Type) : Type := World -> Outcome A * World.

Definition ret {A : Type} (a : A) : M A := fun w => (Return a, w).

Definition raise {A : Type} (e : exn) : M A := fun w => (Raise e, w).

Definition bind {A B : Type} (m : M A) (k : A -> M B) : M B :=
  fun w =>
    match m w with
    | (Return a, w') => k a w'
    | (Raise e, w') => (Raise e, w')
    end.

Definition lift {A : Type} (o : Outcome A) : M A := fun w => (o, w).

Declare Scope eff_scope.
Delimit Scope eff_scope with eff.
Notation "x <- m ;; k" := (bind m (fun x => k))
  (at level 100, m at next level, right associativity) : eff_scope.
Local Open Scope eff_scope.

Definition outcome {A : Type} (r : Outcome A * World) : Outcome A := fst r.
Definition calls {A : Type} (r : Outcome A * World) : World := snd r.

(** A coroutine object: the body of an [async def], not yet run.  Calling
    the function only builds it; [await] runs it to completion. *)
Definition Coroutine (A : Type) : Type := M A.

Definition await {A : Type} (c : Coroutine A) : M A := c.

(** Subscription of a coroutine object: the type defines no
    [__getitem__]. *)
Definition coroutine_getitem {A B : Type} (c : Coroutine A) (i : nat) : M B :=
  raise (TypeError "'coroutine' object is not subscriptable").

(** ** The class *)

Record HCXEmbeddings : Type := {
  model : string;
  api_key : string;
  api_gw_key : string;
  app_id : string;
  ncp_api_base : string
}.

Definition default_model : string := "clir-emb-dolphin".
Definition default_ncp_api_base : string := "clovastudio.apigw.ntruss.com".

Section Requests.
Context `{Runtime}.

(** The call is logged whether or not the transport delivers. *)
Definition perform (call : HttpCall) : M string :=
  fun w =>
    match provider w call with
    | Reply text => (Return text, w ++ [call])
    | Failure detail => (Raise (TransportError detail), w ++ [call])
    end.

Definition loads (text : string) : M pyval :=
  match json_loads text with
  | Some v => ret v
  | None => raise JSONDecodeError
  end.

Definition request_headers (self : HCXEmbeddings) : list (string * string) :=
  [ ("Content-Type", "application/json");
    ("X-NCP-CLOVASTUDIO-API-KEY", api_key self);
    ("X-NCP-APIGW-API-KEY", api_gw_key self) ].

Definition request_path (self : HCXEmbeddings) : string :=
  "/testapp/v1/api-tools/embedding/" +:+ model self +:+ "/" +:+ app_id self.

Definition invalid_input : exn :=
  TypeError "Messages should be a string or a dictionary with 'text' key".

Definition _send_request (self : HCXEmbeddings) (messages : pyval) : M pyval :=
  let messages :=
    if isinstance_str messages then PyDict [("text", messages)] else messages in
  if negb (isinstance_dict messages) then raise invalid_input
  else
    let headers := request_headers self in
    text <- perform (HTTPSConnection_request (ncp_api_base self) "POST"
                       (request_path self) (json_dumps messages) headers) ;;
    result <- loads text ;;
    status <- lift (getitem result "status") ;;
    code <- lift (getitem status "code") ;;
    if eq_str code "20000" then
      res <- lift (getitem result "result") ;;
      lift (getitem res "embedding")
    else raise (Exception ("Error: " +:+ py_str result)).

Definition _asend_request (self : HCXEmbeddings) (messages : pyval)
  : Coroutine pyval :=
  let headers := request_headers self in
  let url := "https://" +:+ ncp_api_base self +:+ request_path self in
  response_text <- perform (ClientSession_post url (json_dumps messages) headers) ;;
  result <- loads response_text ;;
  status <- lift (getitem result "status") ;;
  code <- lift (getitem status "code") ;;
  if eq_str code "20000" then
    res <- lift (getitem result "result") ;;
    lift (getitem res "embedding")
  else raise (Exception ("Error: " +:+ py_str result)).

(** [for text in texts: embeddings.append(send(text))], then
    [return embeddings]. *)
Fixpoint for_append (send : pyval -> M pyval) (texts : list pyval)
    (embeddings : list pyval) : M (list pyval) :=
  match texts with
  | [] => ret embeddings
  | text :: rest =>
      v <- send text ;;
      for_append send rest (embeddings ++ [v])
  end.

Definition _get_embedding (self : HCXEmbeddings) (texts : list pyval)
  : M (list pyval) :=
  for_append (_send_request self) texts [].

Definition _aget_embedding (self : HCXEmbeddings) (texts : list pyval)
  : Coroutine (list pyval) :=
  for_append (fun text => await (_asend_request self text)) texts [].

Definition embed_documents (self : HCXEmbeddings) (texts : list pyval)
  : M (list pyval) :=
  _get_embedding self texts.

Definition aembed_documents (self : HCXEmbeddings) (texts : list pyval)
  : Coroutine (list pyval) :=
  await (_aget_embedding self texts).

Definition embed_query (self : HCXEmbeddings) (text : pyval) : M pyval :=
  docs <- embed_documents self [text] ;;
  lift (list_getitem docs 0).

(** [return await self.aembed_documents([text])[0]]: the operand of
    [await] is the primary [self.aembed_documents([text])[0]], so the
    subscription is applied to the coroutine object that the call
    returns, and [await] to what the subscription yields. *)
Definition aembed_query (self : HCXEmbeddings) (text : pyval)
  : Coroutine pyval :=
  let coro := aembed_documents self [text] in
  item <- coroutine_getitem (B := Coroutine pyval) coro 0 ;;
  await item.

End Requests.

(** ** Construction: the root validator *)

(** What a field holds when the validator runs: [None] (the default of
    the three secrets), a [str], or a [SecretStr]. *)
Inductive field_value : Type :=
| FNone
| FStr (s : string)
| FSecretStr (s : string).

(** Truth value of a field: [None], the empty [str] and a [SecretStr] of
    length 0 are false. *)
Definition truthy (v : field_value) : bool :=
  match v with
  | FNone => false
  | FStr s | FSecretStr s => negb (String.eqb s "")
  end.

Definition not_found (key env_key : string) : exn :=
  ValueError ("Did not find " +:+ key
              +:+ ", please add an environment variable `" +:+ env_key
              +:+ "` which contains it, or pass `" +:+ key
              +:+ "` as a named parameter.").

(** [langchain_core.utils.get_from_env], without a default. *)
Definition get_from_env (environ : gmap string string) (key env_key : string)
  : Outcome field_value :=
  match environ !! env_key with
  | Some s => if negb (String.eqb s "") then Return (FStr s)
              else Raise (not_found key env_key)
  | None => Raise (not_found key env_key)
  end.

(** [langchain_core.utils.get_from_dict_or_env]: the entry of [data] when
    it is there and true, the environment variable otherwise. *)
Definition get_from_dict_or_env (environ : gmap string string)
    (data : gmap string field_value) (key env_key : string)
  : Outcome field_value :=
  match data !! key with
  | Some v => if truthy v then Return v else get_from_env environ key env_key
  | None => get_from_env environ key env_key
  end.

(** [langchain_core.utils.convert_to_secret_str]. *)
Definition convert_to_secret_str (v : field_value) : field_value :=
  match v with
  | FSecretStr s => FSecretStr s
  | FStr s => FSecretStr s
  | FNone => FNone
  end.

Definition values_getitem (values : gmap string field_value) (key : string)
  : Outcome field_value :=
  match values !! key with
  | Some v => Return v
  | None => Raise (KeyError key)
  end.

Definition recognized_models : list string :=
  ["clir-emb-dolphin"; "clir-sts-dolphin"].

(** [v in models], by [==] against each [str] of the list. *)
Definition field_in (v : field_value) (models : list string) : bool :=
  match v with
  | FStr s => bool_decide (s ∈ models)
  | _ => false
  end.

Definition invalid_model : exn :=
  ValueError "Invalid model. Choose from: {'clir-emb-dolphin', 'clir-sts-dolphin'}".

Definition check_api_keys (environ : gmap string string)
    (values : gmap string field_value) : Outcome (gmap string field_value) :=
  api_key ← get_from_dict_or_env environ values "api_key" "NCP_CLOVASTUDIO_API_KEY";
  api_gw_key ← get_from_dict_or_env environ values "api_gw_key" "NCP_APIGW_API_KEY";
  app_id ← get_from_dict_or_env environ values "app_id" "NCP_EMB_APP_ID";
  let values := <["api_key" := convert_to_secret_str api_key]> values in
  let values := <["api_gw_key" := convert_to_secret_str api_gw_key]> values in
  let values := <["app_id" := convert_to_secret_str app_id]> values in
  model ← values_getitem values "model";
  if negb (field_in model recognized_models) then Raise invalid_model
  else Return values.

(** ** Vocabulary of the statements *)

Inductive Mode : Type := Blocking | Cooperative.

Section Vocabulary.
Context `{Runtime}.

(** The single-text path and the batch call of each mode. *)
Definition single (mode : Mode) (self : HCXEmbeddings) (messages : pyval)
  : M pyval :=
  match mode with
  | Blocking => _send_request self messages
  | Cooperative => await (_asend_request self messages)
  end.

Definition batch (mode : Mode) (self : HCXEmbeddings) (texts : list pyval)
  : M (list pyval) :=
  match mode with
  | Blocking => embed_documents self texts
  | Cooperative => await (aembed_documents self texts)
  end.

(** The call that the blocking path makes with a body serialized from
    [payload], and the one that the non-blocking path makes. *)
Definition blocking_call (self : HCXEmbeddings) (payload : pyval) : HttpCall :=
  HTTPSConnection_request (ncp_api_base self) "POST"
    ("/testapp/v1/api-tools/embedding/" +:+ model self +:+ "/" +:+ app_id self)
    (json_dumps payload)
    [ ("Content-Type", "application/json");
      ("X-NCP-CLOVASTUDIO-API-KEY", api_key self);
      ("X-NCP-APIGW-API-KEY", api_gw_key self) ].

Definition cooperative_call (self : HCXEmbeddings) (payload : pyval) : HttpCall :=
  ClientSession_post
    ("https://" +:+ ncp_api_base self +:+ "/testapp/v1/api-tools/embedding/"
     +:+ model self +:+ "/" +:+ app_id self)
    (json_dumps payload)
    [ ("Content-Type", "application/json");
      ("X-NCP-CLOVASTUDIO-API-KEY", api_key self);
      ("X-NCP-APIGW-API-KEY", api_gw_key self) ].

(** The call, if any, that the single-text path of a mode makes for an
    input. *)
Definition call_of (mode : Mode) (self : HCXEmbeddings) (messages : pyval)
  : option HttpCall :=
  match mode, messages with
  | Blocking, PyStr _ => Some (blocking_call self (PyDict [("text", messages)]))
  | Blocking, PyDict _ => Some (blocking_call self messages)
  | Blocking, _ => None
  | Cooperative, _ => Some (cooperative_call self messages)
  end.

(** What both helpers make of the provider's reply. *)
Definition answer (reply : NetReply) : Outcome pyval :=
  match reply with
  | Failure detail => Raise (TransportError detail)
  | Reply text =>
      match json_loads text with
      | None => Raise JSONDecodeError
      | Some result =>
          status ← getitem result "status";
          code ← getitem status "code";
          if eq_str code "20000" then
            res ← getitem result "result";
            getitem res "embedding"
          else Raise (Exception ("Error: " +:+ py_str result))
      end
  end.

(** [served send w texts vs w']: starting from the log [w], the requests
    for [texts], each issued in the state its predecessor left, return
    the vectors [vs] and leave the log [w']. *)
Inductive served (send : pyval -> M pyval)
  : World -> list pyval -> list pyval -> World -> Prop :=
| served_nil w : served send w [] [] w
| served_cons w text v w1 texts vs w2 :
    send text w = (Return v, w1) ->
    served send w1 texts vs w2 ->
    served send w (text :: texts) (v :: vs) w2.

End Vocabulary.

(** A secret is supplied when the field or, failing that, the named
    environment variable holds a non-empty value. *)
Definition supplied (environ : gmap string string)
    (values : gmap string field_value) (key env_key : string) : bool :=
  match values !! key with
  | Some v => truthy v
  | None => false
  end
  || match environ !! env_key with
     | Some s => negb (String.eqb s "")
     | None => false
     end.

Definition secrets_supplied (environ : gmap string string)
    (values : gmap string field_value) : bool :=
  supplied environ values "api_key" "NCP_CLOVASTUDIO_API_KEY"
  && supplied environ values "api_gw_key" "NCP_APIGW_API_KEY"
  && supplied environ values "app_id" "NCP_EMB_APP_ID".

(** ** A mocked provider *)

Module Mock.

Definition dq : string := String "034"%char EmptyString.

(** The text of the floats used below. *)
Definition float_text (x : float) : string :=
  if PrimFloat.eqb x 0.1 then "0.1"
  else if PrimFloat.eqb x 0.2 then "0.2"
  else if PrimFloat.eqb x 0.3 then "0.3"
  else if PrimFloat.eqb x 0.5 then "0.5"
  else "0.0".

Definition join (sep : string) (parts : list string) : string :=
  match parts with
  | [] => ""
  | p :: ps => fold_left (fun acc q => acc +:+ sep +:+ q) ps p
  end.

(** Compact printer shared by the two renderings below, adequate for
    strings that need no escape. *)
Fixpoint render (q none true false : string) (v : pyval) : string :=
  match v with
  | PyNone => none
  | PyBool b => if b then true else false
  | PyInt n => pretty n
  | PyFloat x => float_text x
  | PyStr s => q +:+ s +:+ q
  | PyList items =>
      "[" +:+ join ", " (map (render q none true false) items) +:+ "]"
  | PyDict items =>
      "{" +:+ join ", "
                (map (fun kv => q +:+ fst kv +:+ q +:+ ": "
                                +:+ render q none true false (snd kv)) items)
      +:+ "}"
  end.

Definition dumps : pyval -> string := render dq "null" "true" "false".
Definition repr : pyval -> string := render "'" "None" "True" "False".

Definition ok (vector : list float) : pyval :=
  PyDict [ ("status", PyDict [("code", PyStr "20000")]);
           ("result", PyDict [("embedding", PyList (map PyFloat vector))]) ].

Definition rejected : pyval :=
  PyDict [ ("status", PyDict [("code", PyStr "40001");
                              ("message", PyStr "Invalid parameter")]) ].

(** The documents the mocked provider can send. *)
Definition documents : list pyval :=
  [ ok [0.1; 0.2; 0.3]%float; ok [0.5]%float; rejected ].

Definition parse (text : string) : option pyval :=
  find (fun v => String.eqb (dumps v) text) documents.

(** The provider answers the n-th call of a run with the n-th scripted
    reply, whatever the call is. *)
Definition scripted (replies : list NetReply) : Runtime := {|
  json_dumps := dumps;
  json_loads := parse;
  py_str := repr;
  provider := fun w _ => default (Failure "connection refused") (replies !! length w)
|}.

Definition hcx : HCXEmbeddings := {|
  model := default_model;
  api_key := "key";
  api_gw_key := "gwkey";
  app_id := "app";
  ncp_api_base := default_ncp_api_base
|}.

Definition accepted_text : string := dumps (ok [0.1; 0.2; 0.3]%float).
Definition accepted_text' : string := dumps (ok [0.5]%float).
Definition rejected_text : string := dumps rejected.

(** One accepted request; one rejected request; two accepted requests;
    an accepted request, then a rejected one, then an accepted one. *)
Definition accepting : Runtime := scripted [Reply accepted_text].
Definition rejecting : Runtime := scripted [Reply rejected_text].
Definition accepting_twice : Runtime :=
  scripted [Reply accepted_text; Reply accepted_text'].
Definition rejecting_second : Runtime :=
  scripted [Reply accepted_text; Reply rejected_text; Reply accepted_text'].

Definition vector : pyval := PyList [PyFloat 0.1; PyFloat 0.2; PyFloat 0.3].
Definition vector' : pyval := PyList [PyFloat 0.5].

Definition environ : gmap string string :=
  {[ "NCP_APIGW_API_KEY" := "gwkey" ]}.

(** The fields after [HCXEmbeddings(model=m, api_key="key", app_id="app")]. *)
Definition fields (m : string) : gmap string field_value :=
  {[ "model" := FStr m;
     "api_key" := FSecretStr "key";
     "api_gw_key" := FNone;
     "app_id" := FSecretStr "app";
     "ncp_api_base" := FStr default_ncp_api_base ]}.

End Mock.

(** ** From the validated values to the object *)

(** [SecretStr.get_secret_value()]. *)
Definition get_secret_value (v : field_value) : option string :=
  match v with
  | FSecretStr s => Some s
  | _ => None
  end.

Definition str_value (v : field_value) : option string :=
  match v with
  | FStr s => Some s
  | _ => None
  end.

(** The attributes of the object are the values that the validator
    returned: the request helpers read [self.model], [self.ncp_api_base]
    and the secret value of the three keys. *)
Definition of_values (values : gmap string field_value) : option HCXEmbeddings :=
  m ← values !! "model" ≫= str_value;
  k ← values !! "api_key" ≫= get_secret_value;
  g ← values !! "api_gw_key" ≫= get_secret_value;
  a ← values !! "app_id" ≫= get_secret_value;
  b ← values !! "ncp_api_base" ≫= str_value;
  Some {| model := m; api_key := k; api_gw_key := g; app_id := a;
          ncp_api_base := b |}.

(** The text of a secret as the caller supplied it: the field when it is
    true, the environment variable otherwise. *)
Definition resolved (environ : gmap string string)
    (values : gmap string field_value) (key env_key : string) : option string :=
  match values !! key with
  | Some (FStr s) | Some (FSecretStr s) =>
      if negb (String.eqb s "") then Some s
      else environ !! env_key
  | _ => environ !! env_key
  end.

(** Whether the field of a secret holds a true value. *)
Definition field_given (values : gmap string field_value) (key : string) : bool :=
  match values !! key with
  | Some v => truthy v
  | None => false
  end.

(** The keys that the validator writes. *)
Definition secret_keys : list string := ["api_key"; "api_gw_key"; "app_id"].

(** ** More providers for the examples *)

Module Lab.

(** A gateway error, which has no status; a success status with nothing
    else; a response that is not an object. *)
Definition unauthorized : pyval :=
  PyDict [ ("error", PyDict [("errorCode", PyStr "200");
                             ("message", PyStr "Authentication Failed")]) ].

Definition hollow : pyval :=
  PyDict [ ("status", PyDict [("code", PyStr "20000")]) ].

Definition not_object : pyval := PyList [PyInt 1; PyInt 2].

Definition documents : list pyval :=
  Mock.documents ++ [unauthorized; hollow; not_object].

Definition parse (text : string) : option pyval :=
  find (fun v => String.eqb (Mock.dumps v) text) documents.

(** The n-th call of a run gets the n-th scripted reply. *)
Definition scripted (replies : list NetReply) : Runtime := {|
  json_dumps := Mock.dumps;
  json_loads := parse;
  py_str := Mock.repr;
  provider := fun w _ => default (Failure "connection refused") (replies !! length w)
|}.

(** Every call gets the same reply, whatever came before. *)
Definition constant (reply : NetReply) : Runtime := {|
  json_dumps := Mock.dumps;
  json_loads := parse;
  py_str := Mock.repr;
  provider := fun _ _ => reply
|}.

Definition validated : gmap string field_value :=
  {[ "model" := FStr "clir-sts-dolphin";
     "api_key" := FSecretStr "key";
     "api_gw_key" := FSecretStr "gwkey";
     "app_id" := FSecretStr "app";
     "ncp_api_base" := FStr default_ncp_api_base ]}.

(** An environment that holds more than the gateway key. *)
Definition crowded : gmap string string :=
  {[ "NCP_APIGW_API_KEY" := "gwkey";
     "NCP_CLOVASTUDIO_API_KEY" := "from-the-environment";
     "NCP_EMB_APP_ID" := "another-app";
     "HOME" := "/root" ]}.

End Lab.

(** ** What one request does *)

Section Single.
Context `{Runtime}.

Lemma _send_request_spec (self : HCXEmbeddings) (messages : pyval) (c : HttpCall)
    (w : World) :
  call_of Blocking self messages = Some c ->
  _send_request self messages w = (answer (provider w c), w ++ [c]).
Proof.
  intros Hc.
  assert (Hrun : forall payload,
    isinstance_dict payload = true ->
    c = blocking_call self payload ->
    (if negb (isinstance_dict payload) then raise invalid_input
     else
       text <- perform (HTTPSConnection_request (ncp_api_base self) "POST"
                          (request_path self) (json_dumps payload)
                          (request_headers self)) ;;
       result <- loads text ;;
       status <- lift (getitem result "status") ;;
       code <- lift (getitem status "code") ;;
       if eq_str code "20000" then
         res <- lift (getitem result "result") ;;
         lift (getitem res "embedding")
       else raise (Exception ("Error: " +:+ py_str result))) w
    = (answer (provider w c), w ++ [c])).
  { intros payload Hd ->. rewrite Hd. simpl.
    unfold bind, perform, blocking_call, request_path, request_headers.
    destruct (provider w _) as [text|detail]; simpl; [|reflexivity].
    unfold loads. destruct (json_loads text) as [result|]; simpl; [|reflexivity].
    unfold lift, ret, raise.
    destruct (getitem result "status") as [status|e]; simpl; [|reflexivity].
    destruct (getitem status "code") as [code|e]; simpl; [|reflexivity].
    destruct (eq_str code "20000"); [|reflexivity].
    destruct (getitem result "result") as [res|e]; simpl; reflexivity. }
  destruct messages; simpl in Hc; try discriminate; inversion Hc; subst c;
    unfold _send_request; simpl isinstance_str; cbv iota; apply Hrun; reflexivity.
Qed.

Lemma _send_request_rejects (self : HCXEmbeddings) (messages : pyval) (w : World) :
  call_of Blocking self messages = None ->
  _send_request self messages w = (Raise invalid_input, w).
Proof.
  destruct messages; simpl; intros Hc; try discriminate; reflexivity.
Qed.

Lemma _asend_request_spec (self : HCXEmbeddings) (messages : pyval) (w : World) :
  _asend_request self messages w
  = (answer (provider w (cooperative_call self messages)),
     w ++ [cooperative_call self messages]).
Proof.
  unfold _asend_request, bind, perform, cooperative_call, request_path,
    request_headers.
  destruct (provider w _) as [text|detail]; simpl; [|reflexivity].
  unfold loads. destruct (json_loads text) as [result|]; simpl; [|reflexivity].
  unfold lift, ret, raise.
  destruct (getitem result "status") as [status|e]; simpl; [|reflexivity].
  destruct (getitem status "code") as [code|e]; simpl; [|reflexivity].
  destruct (eq_str code "20000"); [|reflexivity].
  destruct (getitem result "result") as [res|e]; simpl; reflexivity.
Qed.

Lemma single_spec (mode : Mode) (self : HCXEmbeddings) (messages : pyval)
    (c : HttpCall) (w : World) :
  call_of mode self messages = Some c ->
  single mode self messages w = (answer (provider w c), w ++ [c]).
Proof.
  destruct mode; simpl single.
  - apply _send_request_spec.
  - intros Hc. unfold await. rewrite _asend_request_spec.
    simpl in Hc. destruct messages; inversion Hc; reflexivity.
Qed.

End Single.

Section SingleText.
Context `{Runtime}.

Lemma eq_str_true (v : pyval) (s : string) : eq_str v s = true <-> v = PyStr s.
Proof.
  destruct v; simpl; try (split; [discriminate|intros E; discriminate E]).
  rewrite String.eqb_eq. split; [intros ->; reflexivity|intros E; congruence].
Qed.

Lemma eq_str_false (v : pyval) (s : string) : eq_str v s = false <-> v <> PyStr s.
Proof.
  rewrite <- eq_str_true. destruct (eq_str v s); split; congruence.
Qed.

Lemma getitem_not_invalid_input (obj : pyval) (key : string) :
  getitem obj key <> Raise invalid_input.
Proof.
  destruct obj; simpl; try discriminate.
  destruct (dict_get items key); discriminate.
Qed.

(** The reply of the provider never turns into the error of the input
    check. *)
Lemma answer_not_invalid_input (reply : NetReply) :
  answer reply <> Raise invalid_input.
Proof.
  destruct reply as [text|detail]; simpl; [|discriminate].
  destruct (json_loads text) as [result|]; [|discriminate].
  destruct (getitem result "status") as [status|e] eqn:Hs; simpl.
  2:{ rewrite <- Hs. apply getitem_not_invalid_input. }
  destruct (getitem status "code") as [code|e] eqn:Hc; simpl.
  2:{ rewrite <- Hc. apply getitem_not_invalid_input. }
  destruct (eq_str code "20000"); [|discriminate].
  destruct (getitem result "result") as [res|e] eqn:Hr; simpl.
  2:{ rewrite <- Hr. apply getitem_not_invalid_input. }
  apply getitem_not_invalid_input.
Qed.

(** C4. When the provider's reply parses to a response with a status
    code, the single-text path of either mode returns exactly the value
    at [result.embedding] if the code is the str ["20000"], and
    otherwise raises the exception whose message is built from the whole
    parsed response, returning no vector.  Either way one call was
    made. *)
Theorem status_code_decides (mode : Mode) (self : HCXEmbeddings)
    (messages : pyval) (c : HttpCall) (w : World) (text : string)
    (result status code : pyval) :
  call_of mode self messages = Some c ->
  provider w c = Reply text ->
  json_loads text = Some result ->
  getitem result "status" = Return status ->
  getitem status "code" = Return code ->
  (code = PyStr "20000" ->
   forall res vector : pyval,
     getitem result "result" = Return res ->
     getitem res "embedding" = Return vector ->
     single mode self messages w = (Return vector, w ++ [c]))
  /\ (code <> PyStr "20000" ->
      single mode self messages w
      = (Raise (Exception ("Error: " +:+ py_str result)), w ++ [c])).
Proof.
  intros Hc Hp Hl Hs Hcode.
  rewrite (single_spec _ _ _ _ _ Hc), Hp. simpl. rewrite Hl, Hs. simpl.
  rewrite Hcode. simpl. split.
  - intros -> res vector Hr He. simpl. rewrite Hr. simpl. rewrite He.
    reflexivity.
  - intros Hne. apply eq_str_false in Hne. rewrite Hne. reflexivity.
Qed.

(** C8. On an input that the blocking path sends (a str or a dict),
    when the provider gives the same reply to the call of the blocking
    path and to the call of the non-blocking path, the two paths have the
    same outcome: the same vector, or the same exception. *)
Theorem same_reply_same_outcome (self : HCXEmbeddings) (messages : pyval)
    (c : HttpCall) (w : World) (reply : NetReply) :
  call_of Blocking self messages = Some c ->
  provider w c = reply ->
  provider w (cooperative_call self messages) = reply ->
  outcome (_send_request self messages w)
  = outcome (await (_asend_request self messages) w).
Proof.
  intros Hc Hb Ha. unfold await.
  rewrite (_send_request_spec _ _ _ _ Hc), _asend_request_spec.
  unfold outcome. simpl. rewrite Hb, Ha. reflexivity.
Qed.

(** C10. The blocking path takes any dict as it is: the one call it makes
    carries the serialization of that very dict, whatever its keys, and
    its outcome is never the error of the input check; a str is sent
    wrapped as the dict with the single key [text]. *)
Theorem dict_sent_unchanged (self : HCXEmbeddings)
    (items : list (string * pyval)) (w : World) :
  calls (_send_request self (PyDict items) w)
  = w ++ [blocking_call self (PyDict items)]
  /\ outcome (_send_request self (PyDict items) w) <> Raise invalid_input
  /\ forall s : string,
       calls (_send_request self (PyStr s) w)
       = w ++ [blocking_call self (PyDict [("text", PyStr s)])].
Proof.
  split; [|split].
  - rewrite (_send_request_spec self (PyDict items) _ w eq_refl). reflexivity.
  - rewrite (_send_request_spec self (PyDict items) _ w eq_refl).
    apply answer_not_invalid_input.
  - intros s.
    rewrite (_send_request_spec self (PyStr s) _ w eq_refl). reflexivity.
Qed.

(** On the blocking path an input that is neither a str nor a dict is
    refused before anything is sent. *)
Lemma blocking_refuses (self : HCXEmbeddings) (messages : pyval) (w : World) :
  isinstance_str messages = false ->
  isinstance_dict messages = false ->
  _send_request self messages w = (Raise invalid_input, w).
Proof.
  intros Hs Hd. apply _send_request_rejects.
  destruct messages; try reflexivity; discriminate.
Qed.

(** C3. The non-blocking path has no input check: given an int it posts
    the serialized int and its outcome is never the error of the input
    check, where the blocking path raises that error with nothing
    sent. *)
Theorem cooperative_sends_int (self : HCXEmbeddings) (n : Z) (w : World) :
  calls (await (_asend_request self (PyInt n)) w)
  = w ++ [cooperative_call self (PyInt n)]
  /\ outcome (await (_asend_request self (PyInt n)) w) <> Raise invalid_input
  /\ _send_request self (PyInt n) w = (Raise invalid_input, w).
Proof.
  unfold await. rewrite _asend_request_spec. split; [reflexivity|].
  split; [apply answer_not_invalid_input|reflexivity].
Qed.

(** C2. For a str the blocking path sends a POST to the embedding path
    with the three headers and the serialization of the dict
    [{"text": s}], but the non-blocking path posts the serialization of
    the bare str. *)
Theorem cooperative_sends_bare_str (self : HCXEmbeddings) (s : string)
    (w : World) :
  calls (_send_request self (PyStr s) w)
  = w ++ [HTTPSConnection_request (ncp_api_base self) "POST"
            ("/testapp/v1/api-tools/embedding/" +:+ model self +:+ "/"
             +:+ app_id self)
            (json_dumps (PyDict [("text", PyStr s)]))
            [ ("Content-Type", "application/json");
              ("X-NCP-CLOVASTUDIO-API-KEY", api_key self);
              ("X-NCP-APIGW-API-KEY", api_gw_key self) ]]
  /\ calls (await (_asend_request self (PyStr s)) w)
     = w ++ [ClientSession_post
               ("https://" +:+ ncp_api_base self
                +:+ "/testapp/v1/api-tools/embedding/" +:+ model self +:+ "/"
                +:+ app_id self)
               (json_dumps (PyStr s))
               [ ("Content-Type", "application/json");
                 ("X-NCP-CLOVASTUDIO-API-KEY", api_key self);
                 ("X-NCP-APIGW-API-KEY", api_gw_key self) ]].
Proof.
  split.
  - rewrite (_send_request_spec self (PyStr s) _ w eq_refl). reflexivity.
  - unfold await. rewrite _asend_request_spec. reflexivity.
Qed.

End SingleText.

(** ** The loops and the public methods *)

Section Batch.
Context `{Runtime}.

Lemma for_append_served (send : pyval -> M pyval) (w w' : World)
    (texts vs : list pyval) :
  served send w texts vs w' ->
  forall embeddings : list pyval,
    for_append send texts embeddings w = (Return (embeddings ++ vs), w').
Proof.
  induction 1 as [w|w text v w1 texts vs w2 Hsend _ IH]; intros embeddings.
  - simpl. unfold ret. rewrite app_nil_r. reflexivity.
  - simpl. unfold bind. rewrite Hsend, IH, <- app_assoc. reflexivity.
Qed.

Lemma for_append_aborts (send : pyval -> M pyval) (w w1 w2 : World)
    (pre vs : list pyval) (text : pyval) (e : exn) :
  served send w pre vs w1 ->
  send text w1 = (Raise e, w2) ->
  forall (post embeddings : list pyval),
    for_append send (pre ++ text :: post) embeddings w = (Raise e, w2).
Proof.
  induction 1 as [w|w t v w1 texts vs w3 Hsend _ IH];
    intros Hfail post embeddings.
  - simpl. unfold bind. rewrite Hfail. reflexivity.
  - simpl. unfold bind. rewrite Hsend. apply IH, Hfail.
Qed.

Lemma served_length (send : pyval -> M pyval) (w w' : World)
    (texts vs : list pyval) :
  served send w texts vs w' -> length vs = length texts.
Proof.
  induction 1; simpl; congruence.
Qed.

(** A request that returns a vector has made exactly its own call. *)
Lemma single_returns_call (mode : Mode) (self : HCXEmbeddings) (text v : pyval)
    (w w' : World) :
  single mode self text w = (Return v, w') ->
  exists c, call_of mode self text = Some c /\ w' = w ++ [c].
Proof.
  destruct (call_of mode self text) as [c|] eqn:Hc.
  - rewrite (single_spec _ _ _ _ _ Hc). intros E. exists c.
    split; [reflexivity|congruence].
  - destruct mode; [|destruct text; discriminate Hc].
    simpl. rewrite (_send_request_rejects _ _ _ Hc). discriminate.
Qed.

Lemma served_calls (mode : Mode) (self : HCXEmbeddings) (w w' : World)
    (texts vs : list pyval) :
  served (single mode self) w texts vs w' ->
  exists cs : list HttpCall,
    Forall2 (fun text c => call_of mode self text = Some c) texts cs
    /\ w' = w ++ cs.
Proof.
  induction 1 as [w|w text v w1 texts vs w2 Hsend _ [cs [Hcs ->]]].
  - exists []. split; [constructor|]. rewrite app_nil_r. reflexivity.
  - apply single_returns_call in Hsend as [c [Hc ->]].
    exists (c :: cs). split; [constructor; assumption|].
    rewrite <- app_assoc. reflexivity.
Qed.

Lemma batch_for_append (mode : Mode) (self : HCXEmbeddings) (texts : list pyval) :
  batch mode self texts = for_append (single mode self) texts [].
Proof.
  destruct mode; reflexivity.
Qed.

(** C5. When the request for each of the N texts, issued in the state
    its predecessor left, returns a vector, the batch call of either mode
    returns exactly these N vectors in the order of the texts, and the
    calls it has added to the log are one per text, in input order. *)
Theorem batch_in_order (mode : Mode) (self : HCXEmbeddings)
    (texts vs : list pyval) (w w' : World) :
  served (single mode self) w texts vs w' ->
  batch mode self texts w = (Return vs, w')
  /\ length vs = length texts
  /\ exists cs : list HttpCall,
       Forall2 (fun text c => call_of mode self text = Some c) texts cs
       /\ w' = w ++ cs.
Proof.
  intros Hs. split; [|split].
  - rewrite batch_for_append. apply (for_append_served _ _ _ _ _ Hs []).
  - apply (served_length _ _ _ _ _ Hs).
  - apply (served_calls _ _ _ _ _ _ Hs).
Qed.

(** C6. When the requests for the first k texts return vectors and the
    request for the next text raises, the batch call of either mode
    raises that same exception and stops in the state that request left:
    nothing is sent for the texts that follow and no list is
    returned. *)
Theorem batch_aborts (mode : Mode) (self : HCXEmbeddings)
    (pre post vs : list pyval) (text : pyval) (e : exn) (w w1 w2 : World) :
  served (single mode self) w pre vs w1 ->
  single mode self text w1 = (Raise e, w2) ->
  batch mode self (pre ++ text :: post) w = (Raise e, w2)
  /\ calls (batch mode self (pre ++ text :: post) w)
     = calls (batch mode self (pre ++ [text]) w).
Proof.
  intros Hs Hfail. rewrite !batch_for_append.
  rewrite (for_append_aborts _ _ _ _ _ _ _ _ Hs Hfail post []).
  rewrite (for_append_aborts _ _ _ _ _ _ _ _ Hs Hfail [] []).
  split; reflexivity.
Qed.

(** C9. On the empty list the batch call of either mode returns the
    empty list and leaves the log as it was. *)
Theorem batch_empty (mode : Mode) (self : HCXEmbeddings) (w : World) :
  batch mode self [] w = (Return [], w).
Proof.
  destruct mode; reflexivity.
Qed.

(** [embed_query] is the request for its text, and
    [embed_documents] on the one-element list wraps the same vector. *)
Lemma embed_query_single (self : HCXEmbeddings) (text : pyval) (w : World) :
  embed_query self text w = _send_request self text w
  /\ embed_documents self [text] w
     = (v ← outcome (_send_request self text w); Return [v],
        calls (_send_request self text w)).
Proof.
  unfold embed_query, embed_documents, _get_embedding, bind. simpl.
  unfold bind. destruct (_send_request self text w) as [[v|e] w']; split;
    reflexivity.
Qed.

(** C1. [aembed_query] raises [TypeError] on every text and sends
    nothing, since it subscripts the coroutine object instead of the
    list; awaiting [aembed_documents] on the one-element list does make
    the request. *)
Theorem aembed_query_raises (self : HCXEmbeddings) (text : pyval) (w : World) :
  await (aembed_query self text) w
  = (Raise (TypeError "'coroutine' object is not subscriptable"), w)
  /\ calls (await (aembed_documents self [text]) w)
     = w ++ [cooperative_call self text].
Proof.
  split; [reflexivity|].
  unfold await, aembed_documents, await, _aget_embedding. simpl.
  unfold bind, await. rewrite _asend_request_spec.
  destruct (answer _); reflexivity.
Qed.

End Batch.

(** ** Construction *)

Section Construction.
Variable environ : gmap string string.

Lemma get_from_dict_or_env_supplied (values : gmap string field_value)
    (key env_key : string) :
  supplied environ values key env_key = true ->
  exists v, get_from_dict_or_env environ values key env_key = Return v
            /\ truthy v = true.
Proof.
  unfold supplied, get_from_dict_or_env, get_from_env.
  destruct (values !! key) as [v|]; [destruct (truthy v) eqn:Hv|]; simpl;
    try (intros _; exists v; split; [reflexivity|assumption]);
    destruct (environ !! env_key) as [s|]; try discriminate;
    destruct (String.eqb s "") eqn:Hs; try discriminate; simpl;
    intros _; exists (FStr s); simpl; rewrite Hs; split; reflexivity.
Qed.

Lemma get_from_dict_or_env_missing (values : gmap string field_value)
    (key env_key : string) :
  supplied environ values key env_key = false ->
  get_from_dict_or_env environ values key env_key
  = Raise (not_found key env_key).
Proof.
  unfold supplied, get_from_dict_or_env, get_from_env.
  destruct (values !! key) as [v|]; [destruct (truthy v)|]; simpl;
    try discriminate;
    destruct (environ !! env_key) as [s|]; try reflexivity;
    destruct (String.eqb s ""); simpl; try discriminate; reflexivity.
Qed.

Lemma convert_to_secret_str_truthy (v : field_value) :
  truthy v = true ->
  exists s, convert_to_secret_str v = FSecretStr s /\ s <> "".
Proof.
  destruct v as [|s|s]; simpl; try discriminate;
    intros Hs; exists s; (split; [reflexivity|]);
    intros ->; discriminate Hs.
Qed.

(** C7. With the [model] field a str, validation returns the values,
    the three secrets in them non-empty [SecretStr]s, when each secret is
    supplied by its field or its environment variable and the model is
    one of the two recognized names; it raises [ValueError] when a secret
    is supplied by neither or the model is any other str. *)
Theorem construction_checked (values : gmap string field_value) (m : string) :
  values !! "model" = Some (FStr m) ->
  (secrets_supplied environ values = true /\ m ∈ recognized_models ->
   exists (values' : gmap string field_value) (k g a : string),
     check_api_keys environ values = Return values'
     /\ values' !! "api_key" = Some (FSecretStr k) /\ k <> ""
     /\ values' !! "api_gw_key" = Some (FSecretStr g) /\ g <> ""
     /\ values' !! "app_id" = Some (FSecretStr a) /\ a <> ""
     /\ values' !! "model" = Some (FStr m))
  /\ (secrets_supplied environ values = false \/ m ∉ recognized_models ->
      exists msg : string,
        check_api_keys environ values = Raise (ValueError msg)).
Proof.
  intros Hm. unfold secrets_supplied, check_api_keys.
  destruct (supplied environ values "api_key" _) eqn:H1.
  2:{ split; [intros [? _]; discriminate|]. intros _.
      rewrite (get_from_dict_or_env_missing _ _ _ H1). eexists. reflexivity. }
  destruct (get_from_dict_or_env_supplied _ _ _ H1) as [v1 [-> T1]].
  destruct (supplied environ values "api_gw_key" _) eqn:H2.
  2:{ split; [intros [? _]; discriminate|]. intros _. simpl.
      rewrite (get_from_dict_or_env_missing _ _ _ H2). eexists. reflexivity. }
  destruct (get_from_dict_or_env_supplied _ _ _ H2) as [v2 [-> T2]].
  destruct (supplied environ values "app_id" _) eqn:H3.
  2:{ split; [intros [? _]; discriminate|]. intros _. simpl.
      rewrite (get_from_dict_or_env_missing _ _ _ H3). eexists. reflexivity. }
  destruct (get_from_dict_or_env_supplied _ _ _ H3) as [v3 [-> T3]].
  simpl. unfold values_getitem.
  rewrite !lookup_insert_ne by discriminate. rewrite Hm. simpl.
  destruct (convert_to_secret_str_truthy _ T1) as [k [-> Hk]].
  destruct (convert_to_secret_str_truthy _ T2) as [g [-> Hg]].
  destruct (convert_to_secret_str_truthy _ T3) as [a [-> Ha]].
  case_bool_decide as Hin; simpl.
  - split.
    + intros _. eexists _, k, g, a. split; [reflexivity|].
      repeat split; try assumption; simplify_map_eq; reflexivity.
    + intros [?|Hn]; [discriminate|]. contradiction.
  - split.
    + intros [_ ?]. contradiction.
    + intros _. eexists. reflexivity.
Qed.

End Construction.

(** ** The statements at work on the mocked provider *)

Section Instances.
Import Mock.

Lemma status_code_decides_witness :
  @single accepting Blocking hcx (PyStr "hello") []
  = (Return vector,
     [@blocking_call accepting hcx (PyDict [("text", PyStr "hello")])])
  /\ @single rejecting Cooperative hcx (PyStr "hello") []
     = (Raise (Exception
          "Error: {'status': {'code': '40001', 'message': 'Invalid parameter'}}"),
        [@cooperative_call rejecting hcx (PyStr "hello")]).
Proof.
  split.
  - refine (proj1 (@status_code_decides accepting Blocking hcx (PyStr "hello")
                     _ [] accepted_text (ok [0.1; 0.2; 0.3]%float)
                     (PyDict [("code", PyStr "20000")]) (PyStr "20000")
                     _ _ _ _ _) _ _ _ _ _);
      vm_compute; reflexivity.
  - refine (proj2 (@status_code_decides rejecting Cooperative hcx (PyStr "hello")
                     _ [] rejected_text rejected
                     (PyDict [("code", PyStr "40001");
                              ("message", PyStr "Invalid parameter")])
                     (PyStr "40001") _ _ _ _ _) _);
      try (vm_compute; reflexivity).
    intros E. discriminate E.
Defined.

Lemma same_reply_same_outcome_witness :
  outcome (@_send_request accepting hcx (PyStr "hello") [])
  = outcome (await (@_asend_request accepting hcx (PyStr "hello")) []).
Proof.
  refine (@same_reply_same_outcome accepting hcx (PyStr "hello") _ []
            (Reply accepted_text) _ _ _);
    vm_compute; reflexivity.
Defined.

Lemma served_twice (mode : Mode) :
  exists w : World,
    served (@single accepting_twice mode hcx) []
      [PyStr "first"; PyStr "second"] [vector; vector'] w.
Proof.
  destruct mode; eexists;
    (eapply served_cons; [vm_compute; reflexivity|]);
    (eapply served_cons; [vm_compute; reflexivity|]);
    apply served_nil.
Defined.

Lemma batch_in_order_witness :
  outcome (@batch accepting_twice Blocking hcx
             [PyStr "first"; PyStr "second"] [])
  = Return [vector; vector']
  /\ outcome (@batch accepting_twice Cooperative hcx
                [PyStr "first"; PyStr "second"] [])
     = Return [vector; vector'].
Proof.
  split.
  - destruct (served_twice Blocking) as [w Hs].
    destruct (@batch_in_order accepting_twice _ _ _ _ _ _ Hs) as [-> _].
    reflexivity.
  - destruct (served_twice Cooperative) as [w Hs].
    destruct (@batch_in_order accepting_twice _ _ _ _ _ _ Hs) as [-> _].
    reflexivity.
Defined.

Lemma batch_aborts_witness :
  @batch rejecting_second Blocking hcx
    [PyStr "first"; PyStr "second"; PyStr "third"] []
  = (Raise (Exception
       "Error: {'status': {'code': '40001', 'message': 'Invalid parameter'}}"),
     [ @blocking_call rejecting_second hcx (PyDict [("text", PyStr "first")]);
       @blocking_call rejecting_second hcx (PyDict [("text", PyStr "second")]) ]).
Proof.
  refine (proj1 (@batch_aborts rejecting_second Blocking hcx [PyStr "first"]
                   [PyStr "third"] [vector] (PyStr "second") _ [] _ _ _ _)).
  - eapply served_cons; [vm_compute; reflexivity|apply served_nil].
  - vm_compute; reflexivity.
Defined.

Lemma construction_checked_witness :
  (exists values', check_api_keys environ (fields "clir-sts-dolphin")
                   = Return values')
  /\ (exists msg, check_api_keys environ (fields "not-a-model")
                  = Raise (ValueError msg))
  /\ (exists msg, check_api_keys ∅ (fields "clir-sts-dolphin")
                  = Raise (ValueError msg)).
Proof.
  split; [|split].
  - destruct (proj1 (construction_checked environ (fields "clir-sts-dolphin")
                       "clir-sts-dolphin" eq_refl))
      as (values' & _ & _ & _ & Hv & _).
    + split; [vm_compute; reflexivity|].
      apply (bool_decide_unpack _). vm_compute. exact I.
    + exists values'. exact Hv.
  - apply (proj2 (construction_checked environ (fields "not-a-model")
                    "not-a-model" eq_refl)).
    right. apply (bool_decide_unpack _). vm_compute. exact I.
  - apply (proj2 (construction_checked ∅ (fields "clir-sts-dolphin")
                    "clir-sts-dolphin" eq_refl)).
    left. vm_compute. reflexivity.
Defined.

(** The two bodies for the text [hello], as the mocked codec prints
    them. *)
Example hello_bodies :
  calls (await (@_asend_request accepting hcx (PyStr "hello")) [])
  = [ClientSession_post
       "https://clovastudio.apigw.ntruss.com/testapp/v1/api-tools/embedding/clir-emb-dolphin/app"
       (dq +:+ "hello" +:+ dq)
       [ ("Content-Type", "application/json");
         ("X-NCP-CLOVASTUDIO-API-KEY", "key");
         ("X-NCP-APIGW-API-KEY", "gwkey") ]]
  /\ calls (@_send_request accepting hcx (PyStr "hello") [])
     = [HTTPSConnection_request "clovastudio.apigw.ntruss.com" "POST"
          "/testapp/v1/api-tools/embedding/clir-emb-dolphin/app"
          ("{" +:+ dq +:+ "text" +:+ dq +:+ ": " +:+ dq +:+ "hello" +:+ dq +:+ "}")
          [ ("Content-Type", "application/json");
            ("X-NCP-CLOVASTUDIO-API-KEY", "key");
            ("X-NCP-APIGW-API-KEY", "gwkey") ]].
Proof.
  split; vm_compute; reflexivity.
Qed.

(** The int 5 goes out on the non-blocking path and a vector comes
    back. *)
Example five_is_posted :
  await (@_asend_request accepting hcx (PyInt 5)) []
  = (Return vector,
     [ClientSession_post
        "https://clovastudio.apigw.ntruss.com/testapp/v1/api-tools/embedding/clir-emb-dolphin/app"
        "5"
        [ ("Content-Type", "application/json");
          ("X-NCP-CLOVASTUDIO-API-KEY", "key");
          ("X-NCP-APIGW-API-KEY", "gwkey") ]]).
Proof.
  vm_compute. reflexivity.
Qed.

(** With a provider that accepts the request, [embed_query] returns the
    vector, [aembed_documents] returns the list that holds it, and
    [aembed_query] raises. *)
Example query_hello :
  outcome (@embed_query accepting hcx (PyStr "hello") []) = Return vector
  /\ outcome (await (@aembed_documents accepting hcx [PyStr "hello"]) [])
     = Return [vector]
  /\ outcome (await (@aembed_query accepting hcx (PyStr "hello")) [])
     = Raise (TypeError "'coroutine' object is not subscriptable").
Proof.
  repeat split; vm_compute; reflexivity.
Qed.

End Instances.


(** ** Further properties of one request *)

Section SingleMore.
Context `{Runtime}.

Lemma calls_of_single (mode : Mode) (self : HCXEmbeddings) (messages : pyval)
    (w : World) :
  calls (single mode self messages w)
  = w ++ option_list (call_of mode self messages).
Proof.
  destruct (call_of mode self messages) as [c|] eqn:Hc.
  - rewrite (single_spec _ _ _ _ _ Hc). reflexivity.
  - destruct mode; [|destruct messages; discriminate Hc].
    simpl single. rewrite (_send_request_rejects _ _ _ Hc).
    simpl. rewrite app_nil_r. reflexivity.
Qed.

(** X1. Whatever the provider replies, one request adds exactly its own
    call to the end of the log, and nothing when the blocking path refuses
    the input: earlier entries stay, and a failed request is not sent a
    second time.  The same holds of [embed_query]. *)
Theorem single_calls_once (mode : Mode) (self : HCXEmbeddings)
    (messages : pyval) (w : World) :
  calls (single mode self messages w)
  = w ++ option_list (call_of mode self messages)
  /\ calls (embed_query self messages w)
     = w ++ option_list (call_of Blocking self messages).
Proof.
  split; [apply calls_of_single|].
  rewrite (proj1 (embed_query_single self messages w)).
  apply (calls_of_single Blocking).
Qed.

(** X2. The blocking path ends in the error of its input check exactly
    when the input is neither a str nor a dict; no reply of the provider
    produces that error. *)
Theorem blocking_check_exact (self : HCXEmbeddings) (messages : pyval)
    (w : World) :
  outcome (_send_request self messages w) = Raise invalid_input
  <-> isinstance_str messages = false /\ isinstance_dict messages = false.
Proof.
  split.
  - intros Hout.
    destruct (call_of Blocking self messages) as [c|] eqn:Hc.
    + rewrite (_send_request_spec _ _ _ _ Hc) in Hout.
      destruct (answer_not_invalid_input _ Hout).
    + destruct messages; try discriminate Hc; split; reflexivity.
  - intros [Hs Hd]. rewrite (blocking_refuses _ _ _ Hs Hd). reflexivity.
Qed.

(** X3. A response object that has no [status] key is not taken as a
    provider failure: on either path the subscription raises
    [KeyError('status')], after the call was made. *)
Theorem status_missing (mode : Mode) (self : HCXEmbeddings) (messages : pyval)
    (c : HttpCall) (w : World) (text : string) (items : list (string * pyval)) :
  call_of mode self messages = Some c ->
  provider w c = Reply text ->
  json_loads text = Some (PyDict items) ->
  dict_get items "status" = None ->
  single mode self messages w = (Raise (KeyError "status"), w ++ [c]).
Proof.
  intros Hc Hp Hl Hs.
  rewrite (single_spec _ _ _ _ _ Hc), Hp. simpl. rewrite Hl. simpl.
  rewrite Hs. reflexivity.
Qed.

(** X4. A response whose status code is ["20000"] but which is an object
    without a [result] key yields no vector: on either path the
    subscription raises [KeyError('result')]. *)
Theorem result_missing (mode : Mode) (self : HCXEmbeddings) (messages : pyval)
    (c : HttpCall) (w : World) (text : string) (items : list (string * pyval))
    (status : pyval) :
  call_of mode self messages = Some c ->
  provider w c = Reply text ->
  json_loads text = Some (PyDict items) ->
  dict_get items "status" = Some status ->
  getitem status "code" = Return (PyStr "20000") ->
  dict_get items "result" = None ->
  single mode self messages w = (Raise (KeyError "result"), w ++ [c]).
Proof.
  intros Hc Hp Hl Hs Hcode Hr.
  rewrite (single_spec _ _ _ _ _ Hc), Hp. simpl. rewrite Hl. simpl.
  rewrite Hs. simpl. rewrite Hcode. simpl. rewrite Hr. reflexivity.
Qed.

(** X5. A response that parses to anything but an object (a list, a str,
    a number, a bool, null) makes either path raise [TypeError] from the
    subscription, and that error is not the one of the input check. *)
Theorem response_not_object (mode : Mode) (self : HCXEmbeddings)
    (messages : pyval) (c : HttpCall) (w : World) (text : string)
    (result : pyval) :
  call_of mode self messages = Some c ->
  provider w c = Reply text ->
  json_loads text = Some result ->
  isinstance_dict result = false ->
  exists msg : string,
    single mode self messages w = (Raise (TypeError msg), w ++ [c])
    /\ TypeError msg <> invalid_input.
Proof.
  intros Hc Hp Hl Hd.
  rewrite (single_spec _ _ _ _ _ Hc), Hp. simpl. rewrite Hl.
  destruct result; try discriminate Hd; simpl; eexists;
    (split; [reflexivity|discriminate]).
Qed.

(** X6. What the transport or the parser raises comes out unchanged: a
    failure of the transport is raised with its detail, a body that is not
    JSON raises [JSONDecodeError], on either path and with the one call
    logged. *)
Theorem reply_unusable (mode : Mode) (self : HCXEmbeddings) (messages : pyval)
    (c : HttpCall) (w : World) :
  call_of mode self messages = Some c ->
  (forall detail : string,
     provider w c = Failure detail ->
     single mode self messages w = (Raise (TransportError detail), w ++ [c]))
  /\ (forall text : string,
        provider w c = Reply text ->
        json_loads text = None ->
        single mode self messages w = (Raise JSONDecodeError, w ++ [c])).
Proof.
  intros Hc. rewrite (single_spec _ _ _ _ _ Hc). split.
  - intros detail ->. reflexivity.
  - intros text -> Hl. simpl. rewrite Hl. reflexivity.
Qed.

End SingleMore.

(** ** Further properties of the loops *)

Section BatchMore.
Context `{Runtime}.

Lemma for_append_returns (send : pyval -> M pyval) (texts : list pyval) :
  forall (embeddings r : list pyval) (w w' : World),
    for_append send texts embeddings w = (Return r, w') ->
    exists vs, r = embeddings ++ vs /\ served send w texts vs w'.
Proof.
  induction texts as [|text texts IH]; intros embeddings r w w'; simpl.
  - unfold ret. intros E. inversion E; subst. exists [].
    split; [rewrite app_nil_r; reflexivity|constructor].
  - unfold bind. destruct (send text w) as [[v|e] w1] eqn:Hsend;
      [|discriminate].
    intros Hrest. destruct (IH _ _ _ _ Hrest) as [vs [-> Hs]].
    exists (v :: vs). split; [rewrite <- app_assoc; reflexivity|].
    econstructor; eassumption.
Qed.

Lemma for_append_raises (send : pyval -> M pyval) (texts : list pyval) :
  forall (embeddings : list pyval) (e : exn) (w w' : World),
    for_append send texts embeddings w = (Raise e, w') ->
    exists pre text post vs w1,
      texts = pre ++ text :: post
      /\ served send w pre vs w1
      /\ send text w1 = (Raise e, w').
Proof.
  induction texts as [|text texts IH]; intros embeddings e w w'; simpl.
  - unfold ret. discriminate.
  - unfold bind. destruct (send text w) as [[v|e'] w1] eqn:Hsend.
    + intros Hrest.
      destruct (IH _ _ _ _ Hrest) as (pre & t & post & vs & w2 & -> & Hs & Hf).
      exists (text :: pre), t, post, (v :: vs), w2.
      split; [reflexivity|]. split; [econstructor; eassumption|assumption].
    + intros E. inversion E; subst.
      exists [], text, texts, [], w. split; [reflexivity|].
      split; [constructor|assumption].
Qed.

(** The accumulator only prefixes the result. *)
Lemma for_append_from (send : pyval -> M pyval) (texts : list pyval) :
  forall (embeddings : list pyval) (w : World),
    for_append send texts embeddings w
    = (vs <- for_append send texts [] ;; ret (embeddings ++ vs)) w.
Proof.
  intros embeddings w. unfold bind.
  destruct (for_append send texts [] w) as [[vs|e] w'] eqn:Hrun.
  - destruct (for_append_returns _ _ _ _ _ _ Hrun) as [vs' [-> Hs]].
    apply (for_append_served _ _ _ _ _ Hs).
  - destruct (for_append_raises _ _ _ _ _ _ Hrun)
      as (pre & t & post & vs & w1 & -> & Hs & Hf).
    apply (for_append_aborts _ _ _ _ _ _ _ _ Hs Hf).
Qed.

Lemma for_append_app (send : pyval -> M pyval) (xs ys : list pyval) :
  forall (embeddings : list pyval) (w : World),
    for_append send (xs ++ ys) embeddings w
    = (r <- for_append send xs embeddings ;; for_append send ys r) w.
Proof.
  induction xs as [|x xs IH]; intros embeddings w; simpl.
  - reflexivity.
  - unfold bind. destruct (send x w) as [[v|e] w1]; [|reflexivity].
    rewrite IH. reflexivity.
Qed.

(** X7. A batch call that returns has obtained each vector from the
    request for the text at the same position, each request issued in the
    state the previous one left: the list has one vector per text. *)
Theorem batch_returned (mode : Mode) (self : HCXEmbeddings)
    (texts vs : list pyval) (w w' : World) :
  batch mode self texts w = (Return vs, w') ->
  served (single mode self) w texts vs w' /\ length vs = length texts.
Proof.
  rewrite batch_for_append. intros Hrun.
  destruct (for_append_returns _ _ _ _ _ _ Hrun) as [vs' [-> Hs]].
  split; [exact Hs|]. apply (served_length _ _ _ _ _ Hs).
Qed.

(** X8. A batch call raises only what one of its requests raised: there
    is a text before which every request returned and whose own request
    raised that exception and left that log. *)
Theorem batch_raised (mode : Mode) (self : HCXEmbeddings)
    (texts : list pyval) (e : exn) (w w' : World) :
  batch mode self texts w = (Raise e, w') ->
  exists (pre : list pyval) (text : pyval) (post vs : list pyval) (w1 : World),
    texts = pre ++ text :: post
    /\ served (single mode self) w pre vs w1
    /\ single mode self text w1 = (Raise e, w').
Proof.
  rewrite batch_for_append. apply for_append_raises.
Qed.

Lemma for_append_calls (mode : Mode) (self : HCXEmbeddings) (texts : list pyval) :
  forall (embeddings : list pyval) (w : World),
    exists cs : list HttpCall,
      calls (for_append (single mode self) texts embeddings w) = w ++ cs
      /\ cs `prefix_of`
           concat (map (fun text => option_list (call_of mode self text)) texts).
Proof.
  induction texts as [|text texts IH]; intros embeddings w; simpl.
  - exists []. split; [rewrite app_nil_r; reflexivity|reflexivity].
  - unfold bind. pose proof (calls_of_single mode self text w) as Hc.
    destruct (single mode self text w) as [[v|e] w1]; simpl in Hc; subst w1.
    + destruct (IH (embeddings ++ [v])
                  (w ++ option_list (call_of mode self text))) as [cs [-> Hp]].
      exists (option_list (call_of mode self text) ++ cs).
      split; [rewrite <- app_assoc; reflexivity|].
      apply prefix_app, Hp.
    + exists (option_list (call_of mode self text)).
      split; [reflexivity|]. apply prefix_app_r. reflexivity.
Qed.

(** X9. In every run of a batch call, returning or raising, the calls
    added to the log are an initial segment of the calls of the texts
    taken in input order: at most one per text, none out of order, none
    repeated. *)
Theorem batch_calls_prefix (mode : Mode) (self : HCXEmbeddings)
    (texts : list pyval) (w : World) :
  exists cs : list HttpCall,
    calls (batch mode self texts w) = w ++ cs
    /\ cs `prefix_of`
         concat (map (fun text => option_list (call_of mode self text)) texts)
    /\ length cs <= length texts.
Proof.
  rewrite batch_for_append.
  destruct (for_append_calls mode self texts [] w) as [cs [Hc Hp]].
  exists cs. split; [exact Hc|]. split; [exact Hp|].
  apply prefix_length in Hp. etransitivity; [exact Hp|].
  clear. induction texts as [|text texts IH]; simpl; [lia|].
  rewrite length_app.
  destruct (call_of mode self text); simpl; lia.
Qed.

(** X10. A batch call on a concatenation is the batch call on the first
    list followed, if it returns, by the batch call on the second in the
    state the first left; the results are concatenated. *)
Theorem batch_app (mode : Mode) (self : HCXEmbeddings) (xs ys : list pyval)
    (w : World) :
  batch mode self (xs ++ ys) w
  = (vs <- batch mode self xs ;;
     vs' <- batch mode self ys ;;
     ret (vs ++ vs')) w.
Proof.
  rewrite (batch_for_append mode self (xs ++ ys)), for_append_app.
  unfold bind. rewrite (batch_for_append mode self xs).
  destruct (for_append (single mode self) xs [] w) as [[vs|e] w1];
    [|reflexivity].
  rewrite (batch_for_append mode self ys), for_append_from.
  reflexivity.
Qed.

End BatchMore.

(** ** Providers that forget *)

Section Stateless.
Context `{Runtime}.

(** With replies that do not depend on the log, neither does the outcome
    of a request. *)
Lemma single_outcome_stable (mode : Mode) (self : HCXEmbeddings)
    (messages : pyval) (w w0 : World) :
  (forall (w1 w2 : World) (c : HttpCall), provider w1 c = provider w2 c) ->
  outcome (single mode self messages w) = outcome (single mode self messages w0).
Proof.
  intros Hst. destruct (call_of mode self messages) as [c|] eqn:Hc.
  - rewrite !(single_spec _ _ _ _ _ Hc). unfold outcome. simpl.
    rewrite (Hst w w0). reflexivity.
  - destruct mode; [|destruct messages; discriminate Hc].
    simpl single. rewrite !(_send_request_rejects _ _ _ Hc). reflexivity.
Qed.

(** X11. When the provider's reply to a call does not depend on the calls
    made before, the vector that [embed_documents] returns at a position
    is the one that [embed_query] returns for the text at that position,
    from any log. *)
Theorem documents_match_queries (self : HCXEmbeddings) (texts vs : list pyval)
    (w w' : World) :
  (forall (w1 w2 : World) (c : HttpCall), provider w1 c = provider w2 c) ->
  embed_documents self texts w = (Return vs, w') ->
  Forall2 (fun text v =>
             forall w0 : World, outcome (embed_query self text w0) = Return v)
          texts vs.
Proof.
  intros Hst Hrun.
  destruct (for_append_returns _ _ _ _ _ _ Hrun) as [vs' [-> Hs]]. simpl.
  clear Hrun. induction Hs as [w|w text v w1 texts vs w2 Hsend _ IH]; constructor.
  - intros w0. rewrite (proj1 (embed_query_single self text w0)).
    change (_send_request self text w0) with (single Blocking self text w0).
    rewrite <- (single_outcome_stable Blocking self text w w0 Hst).
    simpl. rewrite Hsend. reflexivity.
  - exact IH.
Qed.

Lemma for_append_modes (self : HCXEmbeddings) (texts : list pyval) :
  (forall (w1 w2 : World) (c1 c2 : HttpCall),
     length w1 = length w2 -> provider w1 c1 = provider w2 c2) ->
  Forall (fun text => isinstance_str text || isinstance_dict text = true) texts ->
  forall (embeddings : list pyval) (w1 w2 : World),
    length w1 = length w2 ->
    outcome (for_append (single Blocking self) texts embeddings w1)
    = outcome (for_append (single Cooperative self) texts embeddings w2).
Proof.
  intros Hlen Hok. induction Hok as [|text texts Htext _ IH];
    intros embeddings w1 w2 Hw; cbn [for_append].
  - reflexivity.
  - assert (exists c, call_of Blocking self text = Some c) as [c Hc].
    { destruct text; try discriminate Htext; eexists; reflexivity. }
    unfold bind.
    rewrite (single_spec Blocking _ _ _ w1 Hc).
    rewrite (single_spec Cooperative self text _ w2 eq_refl).
    rewrite (Hlen w1 w2 c (cooperative_call self text) Hw).
    destruct (answer _) as [v|e]; [|reflexivity].
    apply IH. rewrite !length_app. simpl. lia.
Qed.

(** X12. When the provider's reply depends only on how many calls came
    before (a scripted provider), the blocking and the non-blocking batch
    call have the same outcome on every list of strs and dicts. *)
Theorem batch_modes_agree (self : HCXEmbeddings) (texts : list pyval)
    (w : World) :
  (forall (w1 w2 : World) (c1 c2 : HttpCall),
     length w1 = length w2 -> provider w1 c1 = provider w2 c2) ->
  Forall (fun text => isinstance_str text || isinstance_dict text = true) texts ->
  outcome (embed_documents self texts w)
  = outcome (await (aembed_documents self texts) w).
Proof.
  intros Hlen Hok.
  apply (for_append_modes self texts Hlen Hok [] w w eq_refl).
Qed.

Lemma getitem_not_index_error (obj : pyval) (key msg : string) :
  getitem obj key <> Raise (IndexError msg).
Proof.
  destruct obj; simpl; try discriminate.
  destruct (dict_get items key); discriminate.
Qed.

Lemma answer_not_index_error (reply : NetReply) (msg : string) :
  answer reply <> Raise (IndexError msg).
Proof.
  destruct reply as [text|detail]; simpl; [|discriminate].
  destruct (json_loads text) as [result|]; [|discriminate].
  destruct (getitem result "status") as [status|e] eqn:Hs; simpl.
  2:{ rewrite <- Hs. apply getitem_not_index_error. }
  destruct (getitem status "code") as [code|e] eqn:Hc; simpl.
  2:{ rewrite <- Hc. apply getitem_not_index_error. }
  destruct (eq_str code "20000"); [|discriminate].
  destruct (getitem result "result") as [res|e] eqn:Hr; simpl.
  2:{ rewrite <- Hr. apply getitem_not_index_error. }
  apply getitem_not_index_error.
Qed.

(** X13. [embed_query] is the request for its text: the same outcome and
    the same log as [_send_request], so the subscription [[0]] of the
    one-element batch never raises [IndexError]. *)
Theorem embed_query_is_request (self : HCXEmbeddings) (text : pyval)
    (w : World) :
  embed_query self text w = _send_request self text w
  /\ forall msg : string,
       outcome (embed_query self text w) <> Raise (IndexError msg).
Proof.
  destruct (embed_query_single self text w) as [-> _].
  split; [reflexivity|]. intros msg.
  destruct (call_of Blocking self text) as [c|] eqn:Hc.
  - rewrite (_send_request_spec _ _ _ _ Hc).
    apply answer_not_index_error.
  - rewrite (_send_request_rejects _ _ _ Hc). discriminate.
Qed.

End Stateless.

(** ** Further properties of the validator *)

Section ValidatorMore.
Variable environ : gmap string string.

(** What [get_from_dict_or_env] returns is true, and its text is the
    resolved one. *)
Lemma get_from_dict_or_env_returns (values : gmap string field_value)
    (key env_key : string) (v : field_value) :
  get_from_dict_or_env environ values key env_key = Return v ->
  exists s, convert_to_secret_str v = FSecretStr s
            /\ s <> ""
            /\ resolved environ values key env_key = Some s.
Proof.
  unfold get_from_dict_or_env, get_from_env, resolved.
  destruct (values !! key) as [[|s|s]|]; simpl;
    try destruct (String.eqb s "") eqn:Hs; simpl;
    try (intros E; inversion E; subst; exists s; simpl;
         (split; [reflexivity|]); (split; [|reflexivity]);
         intros ->; discriminate Hs);
    destruct (environ !! env_key) as [t|]; try discriminate;
    destruct (String.eqb t "") eqn:Ht; simpl; try discriminate;
    intros E; inversion E; subst; exists t; simpl;
    (split; [reflexivity|]); (split; [|reflexivity]);
    intros ->; discriminate Ht.
Qed.

(** A non-empty [SecretStr] in the field is returned as it is, whatever
    the environment holds. *)
Lemma get_from_dict_or_env_field (environ' : gmap string string)
    (values : gmap string field_value) (key env_key s : string) :
  values !! key = Some (FSecretStr s) ->
  s <> "" ->
  get_from_dict_or_env environ' values key env_key = Return (FSecretStr s).
Proof.
  intros Hv Hs. unfold get_from_dict_or_env. rewrite Hv. simpl.
  destruct (String.eqb s "") eqn:E; [|reflexivity].
  apply String.eqb_eq in E. contradiction.
Qed.

(** The shape of every successful validation. *)
Lemma check_api_keys_returns (values values' : gmap string field_value) :
  check_api_keys environ values = Return values' ->
  exists (k g a m : string),
    values' = <["app_id" := FSecretStr a]>
                (<["api_gw_key" := FSecretStr g]>
                   (<["api_key" := FSecretStr k]> values))
    /\ (k <> "" /\ resolved environ values "api_key" "NCP_CLOVASTUDIO_API_KEY" = Some k)
    /\ (g <> "" /\ resolved environ values "api_gw_key" "NCP_APIGW_API_KEY" = Some g)
    /\ (a <> "" /\ resolved environ values "app_id" "NCP_EMB_APP_ID" = Some a)
    /\ values !! "model" = Some (FStr m)
    /\ m ∈ recognized_models.
Proof.
  unfold check_api_keys.
  destruct (get_from_dict_or_env environ values "api_key" _) as [v1|e] eqn:H1;
    [|discriminate].
  destruct (get_from_dict_or_env environ values "api_gw_key" _) as [v2|e] eqn:H2;
    [|discriminate].
  destruct (get_from_dict_or_env environ values "app_id" _) as [v3|e] eqn:H3;
    [|discriminate].
  simpl.
  destruct (get_from_dict_or_env_returns _ _ _ _ H1) as (k & -> & Hk & Rk).
  destruct (get_from_dict_or_env_returns _ _ _ _ H2) as (g & -> & Hg & Rg).
  destruct (get_from_dict_or_env_returns _ _ _ _ H3) as (a & -> & Ha & Ra).
  unfold values_getitem. rewrite !lookup_insert_ne by discriminate.
  destruct (values !! "model") as [model|] eqn:Hm; simpl; [|discriminate].
  destruct model as [|m|m]; simpl; try discriminate.
  case_bool_decide as Hin; simpl; [|discriminate].
  intros E. inversion E. exists k, g, a, m. repeat split; assumption.
Qed.

(** X14. Validation is idempotent: the values it returns pass validation
    again unchanged, under any environment. *)
Theorem check_api_keys_idempotent (values values' : gmap string field_value)
    (environ' : gmap string string) :
  check_api_keys environ values = Return values' ->
  check_api_keys environ' values' = Return values'.
Proof.
  intros Hrun.
  destruct (check_api_keys_returns _ _ Hrun)
    as (k & g & a & m & -> & [Hk _] & [Hg _] & [Ha _] & Hm & Hin).
  set (validated := <["app_id" := FSecretStr a]> _).
  assert (L1 : validated !! "api_key" = Some (FSecretStr k))
    by (subst validated; simplify_map_eq; reflexivity).
  assert (L2 : validated !! "api_gw_key" = Some (FSecretStr g))
    by (subst validated; simplify_map_eq; reflexivity).
  assert (L3 : validated !! "app_id" = Some (FSecretStr a))
    by (subst validated; simplify_map_eq; reflexivity).
  assert (LM : validated !! "model" = Some (FStr m))
    by (subst validated; simplify_map_eq; reflexivity).
  clearbody validated. unfold check_api_keys.
  rewrite (get_from_dict_or_env_field _ _ _ _ _ L1 Hk),
    (get_from_dict_or_env_field _ _ _ _ _ L2 Hg),
    (get_from_dict_or_env_field _ _ _ _ _ L3 Ha).
  simpl. rewrite (insert_id validated "api_key") by exact L1.
  rewrite (insert_id validated "api_gw_key") by exact L2.
  rewrite (insert_id validated "app_id") by exact L3.
  unfold values_getitem. rewrite LM. simpl.
  rewrite bool_decide_true by exact Hin. reflexivity.
Qed.

(** X15. Validation writes the three secret keys and nothing else: under
    every other key the returned values hold what was passed in. *)
Theorem check_api_keys_frame (values values' : gmap string field_value)
    (key : string) :
  check_api_keys environ values = Return values' ->
  key ∉ secret_keys ->
  values' !! key = values !! key.
Proof.
  intros Hrun Hkey.
  destruct (check_api_keys_returns _ _ Hrun) as (k & g & a & m & -> & _).
  unfold secret_keys in Hkey.
  rewrite !lookup_insert_ne; [reflexivity|..];
    intros <-; apply Hkey; set_solver.
Qed.

(** X16. The secrets are resolved in the order [api_key], [api_gw_key],
    [app_id], before the model is looked at: the error names the first
    one that is supplied by neither its field nor its variable, whatever
    the model is. *)
Theorem first_missing_secret_reported (values : gmap string field_value) :
  (supplied environ values "api_key" "NCP_CLOVASTUDIO_API_KEY" = false ->
   check_api_keys environ values
   = Raise (not_found "api_key" "NCP_CLOVASTUDIO_API_KEY"))
  /\ (supplied environ values "api_key" "NCP_CLOVASTUDIO_API_KEY" = true ->
      supplied environ values "api_gw_key" "NCP_APIGW_API_KEY" = false ->
      check_api_keys environ values
      = Raise (not_found "api_gw_key" "NCP_APIGW_API_KEY"))
  /\ (supplied environ values "api_key" "NCP_CLOVASTUDIO_API_KEY" = true ->
      supplied environ values "api_gw_key" "NCP_APIGW_API_KEY" = true ->
      supplied environ values "app_id" "NCP_EMB_APP_ID" = false ->
      check_api_keys environ values
      = Raise (not_found "app_id" "NCP_EMB_APP_ID")).
Proof.
  unfold check_api_keys. split; [|split].
  - intros H1. rewrite (get_from_dict_or_env_missing _ _ _ _ H1). reflexivity.
  - intros H1 H2.
    destruct (get_from_dict_or_env_supplied _ _ _ _ H1) as [v1 [-> _]].
    rewrite (get_from_dict_or_env_missing _ _ _ _ H2). reflexivity.
  - intros H1 H2 H3.
    destruct (get_from_dict_or_env_supplied _ _ _ _ H1) as [v1 [-> _]].
    destruct (get_from_dict_or_env_supplied _ _ _ _ H2) as [v2 [-> _]].
    rewrite (get_from_dict_or_env_missing _ _ _ _ H3). reflexivity.
Qed.

(** X17. When the values hold no [model] entry and the three secrets are
    supplied, validation raises [KeyError('model')], not the [ValueError]
    of an unrecognized model. *)
Theorem model_entry_missing (values : gmap string field_value) :
  secrets_supplied environ values = true ->
  values !! "model" = None ->
  check_api_keys environ values = Raise (KeyError "model").
Proof.
  unfold secrets_supplied. intros Hs Hm.
  apply andb_prop in Hs as [Hs H3]. apply andb_prop in Hs as [H1 H2].
  unfold check_api_keys.
  destruct (get_from_dict_or_env_supplied _ _ _ _ H1) as [v1 [-> _]].
  destruct (get_from_dict_or_env_supplied _ _ _ _ H2) as [v2 [-> _]].
  destruct (get_from_dict_or_env_supplied _ _ _ _ H3) as [v3 [-> _]].
  simpl. unfold values_getitem. rewrite !lookup_insert_ne by discriminate.
  rewrite Hm. reflexivity.
Qed.

(** X18. After a successful validation the object exists and carries the
    secrets as the caller supplied them, the field first and the
    environment variable when the field is empty: these are the key
    headers of every request, and the model of the object is one of the
    two recognized names. *)
Theorem validated_object (values values' : gmap string field_value)
    (base : string) :
  check_api_keys environ values = Return values' ->
  values !! "ncp_api_base" = Some (FStr base) ->
  exists self : HCXEmbeddings,
    of_values values' = Some self
    /\ resolved environ values "api_key" "NCP_CLOVASTUDIO_API_KEY"
       = Some (api_key self)
    /\ resolved environ values "api_gw_key" "NCP_APIGW_API_KEY"
       = Some (api_gw_key self)
    /\ resolved environ values "app_id" "NCP_EMB_APP_ID" = Some (app_id self)
    /\ model self ∈ recognized_models
    /\ values !! "model" = Some (FStr (model self))
    /\ ncp_api_base self = base.
Proof.
  intros Hrun Hb.
  destruct (check_api_keys_returns _ _ Hrun)
    as (k & g & a & m & -> & [_ Rk] & [_ Rg] & [_ Ra] & Hm & Hin).
  exists {| model := m; api_key := k; api_gw_key := g; app_id := a;
            ncp_api_base := base |}.
  split; [|repeat split; assumption].
  unfold of_values. simplify_map_eq. reflexivity.
Qed.

Lemma get_from_dict_or_env_agree (environ' : gmap string string)
    (values : gmap string field_value) (key env_key : string) :
  (field_given values key = false -> environ !! env_key = environ' !! env_key) ->
  get_from_dict_or_env environ values key env_key
  = get_from_dict_or_env environ' values key env_key.
Proof.
  unfold field_given, get_from_dict_or_env, get_from_env.
  destruct (values !! key) as [v|]; [destruct (truthy v)|]; intros Henv;
    try reflexivity; rewrite (Henv eq_refl); reflexivity.
Qed.

(** X19. Validation reads the environment only for a secret whose field
    is empty, and then only the variable named for it: two environments
    that agree on those variables give the same result, values or
    error. *)
Theorem environment_read_on_demand (environ' : gmap string string)
    (values : gmap string field_value) :
  (field_given values "api_key" = false ->
   environ !! "NCP_CLOVASTUDIO_API_KEY" = environ' !! "NCP_CLOVASTUDIO_API_KEY") ->
  (field_given values "api_gw_key" = false ->
   environ !! "NCP_APIGW_API_KEY" = environ' !! "NCP_APIGW_API_KEY") ->
  (field_given values "app_id" = false ->
   environ !! "NCP_EMB_APP_ID" = environ' !! "NCP_EMB_APP_ID") ->
  check_api_keys environ values = check_api_keys environ' values.
Proof.
  intros H1 H2 H3. unfold check_api_keys.
  rewrite (get_from_dict_or_env_agree environ' _ _ _ H1),
    (get_from_dict_or_env_agree environ' _ _ _ H2),
    (get_from_dict_or_env_agree environ' _ _ _ H3).
  reflexivity.
Qed.

End ValidatorMore.

(** ** The further properties at work *)

Section InstancesMore.
Import Mock Lab.

Lemma status_missing_witness :
  @single (Lab.scripted [Reply (dumps unauthorized)]) Cooperative hcx
    (PyStr "hello") []
  = (Raise (KeyError "status"),
     [@cooperative_call (Lab.scripted []) hcx (PyStr "hello")]).
Proof.
  refine (@status_missing (Lab.scripted [Reply (dumps unauthorized)])
            Cooperative hcx (PyStr "hello") _ [] _ _ _ _ _ _);
    vm_compute; reflexivity.
Defined.

Lemma result_missing_witness :
  @single (Lab.scripted [Reply (dumps hollow)]) Blocking hcx (PyStr "hello") []
  = (Raise (KeyError "result"),
     [@blocking_call (Lab.scripted []) hcx (PyDict [("text", PyStr "hello")])]).
Proof.
  refine (@result_missing (Lab.scripted [Reply (dumps hollow)])
            Blocking hcx (PyStr "hello") _ [] _ _ _ _ _ _ _ _ _);
    vm_compute; reflexivity.
Defined.

Lemma response_not_object_witness :
  exists msg : string,
    @single (Lab.scripted [Reply (dumps not_object)]) Blocking hcx
      (PyStr "hello") []
    = (Raise (TypeError msg),
       [@blocking_call (Lab.scripted []) hcx (PyDict [("text", PyStr "hello")])])
    /\ TypeError msg <> invalid_input.
Proof.
  refine (@response_not_object (Lab.scripted [Reply (dumps not_object)])
            Blocking hcx (PyStr "hello") _ [] _ _ _ _ _ _);
    vm_compute; reflexivity.
Defined.

Lemma reply_unusable_witness :
  @single (Lab.scripted []) Blocking hcx (PyStr "hello") []
  = (Raise (TransportError "connection refused"),
     [@blocking_call (Lab.scripted []) hcx (PyDict [("text", PyStr "hello")])])
  /\ @single (Lab.scripted [Reply "<html>Bad Gateway</html>"]) Cooperative hcx
       (PyStr "hello") []
     = (Raise JSONDecodeError,
        [@cooperative_call (Lab.scripted []) hcx (PyStr "hello")]).
Proof.
  split.
  - refine (proj1 (@reply_unusable (Lab.scripted []) Blocking hcx
                     (PyStr "hello") _ [] _) _ _);
      vm_compute; reflexivity.
  - refine (proj2 (@reply_unusable
                     (Lab.scripted [Reply "<html>Bad Gateway</html>"])
                     Cooperative hcx (PyStr "hello") _ [] _) _ _ _);
      vm_compute; reflexivity.
Defined.

Lemma batch_returned_witness :
  served (@single accepting_twice Blocking hcx) []
    [PyStr "first"; PyStr "second"] [vector; vector']
    [ @blocking_call accepting_twice hcx (PyDict [("text", PyStr "first")]);
      @blocking_call accepting_twice hcx (PyDict [("text", PyStr "second")]) ]
  /\ length [vector; vector'] = length [PyStr "first"; PyStr "second"].
Proof.
  refine (@batch_returned accepting_twice Blocking hcx _ _ [] _ _).
  vm_compute. reflexivity.
Defined.

Lemma batch_raised_witness :
  exists (pre : list pyval) (text : pyval) (post vs : list pyval) (w1 : World),
    [PyStr "first"; PyStr "second"; PyStr "third"] = pre ++ text :: post
    /\ served (@single rejecting_second Cooperative hcx) [] pre vs w1
    /\ @single rejecting_second Cooperative hcx text w1
       = (Raise (Exception
            "Error: {'status': {'code': '40001', 'message': 'Invalid parameter'}}"),
          [ @cooperative_call rejecting_second hcx (PyStr "first");
            @cooperative_call rejecting_second hcx (PyStr "second") ]).
Proof.
  refine (@batch_raised rejecting_second Cooperative hcx _ _ [] _ _).
  vm_compute. reflexivity.
Defined.

Lemma documents_match_queries_witness :
  Forall2 (fun text v =>
             forall w0 : World,
               outcome (@embed_query (constant (Reply accepted_text)) hcx text w0)
               = Return v)
          [PyStr "first"; PyStr "second"] [vector; vector].
Proof.
  refine (@documents_match_queries (constant (Reply accepted_text)) hcx
            _ _ [] _ _ _).
  - intros w1 w2 c. reflexivity.
  - vm_compute. reflexivity.
Defined.

Lemma batch_modes_agree_witness :
  outcome (@embed_documents accepting_twice hcx
             [PyStr "first"; PyDict [("text", PyStr "second")]] [])
  = outcome (await (@aembed_documents accepting_twice hcx
                      [PyStr "first"; PyDict [("text", PyStr "second")]]) []).
Proof.
  refine (@batch_modes_agree accepting_twice hcx _ [] _ _).
  - intros w1 w2 c1 c2 Hlen. simpl. rewrite Hlen. reflexivity.
  - repeat constructor.
Defined.

Lemma check_api_keys_idempotent_witness :
  check_api_keys ∅ validated = Return validated.
Proof.
  refine (check_api_keys_idempotent Mock.environ (fields "clir-sts-dolphin")
            validated ∅ _).
  vm_compute. reflexivity.
Defined.

Lemma check_api_keys_frame_witness :
  validated !! "ncp_api_base" = fields "clir-sts-dolphin" !! "ncp_api_base".
Proof.
  refine (check_api_keys_frame Mock.environ (fields "clir-sts-dolphin")
            validated "ncp_api_base" _ _).
  - vm_compute. reflexivity.
  - apply (bool_decide_unpack _). vm_compute. exact I.
Defined.

Lemma first_missing_secret_reported_witness :
  check_api_keys ∅ (fields "not-a-model")
  = Raise (not_found "api_gw_key" "NCP_APIGW_API_KEY").
Proof.
  refine (proj1 (proj2 (first_missing_secret_reported ∅ (fields "not-a-model")))
            _ _);
    vm_compute; reflexivity.
Defined.

Lemma model_entry_missing_witness :
  check_api_keys Mock.environ (delete "model" (fields "clir-sts-dolphin"))
  = Raise (KeyError "model").
Proof.
  refine (model_entry_missing Mock.environ
            (delete "model" (fields "clir-sts-dolphin")) _ _);
    vm_compute; reflexivity.
Defined.

Lemma validated_object_witness :
  exists self : HCXEmbeddings,
    of_values validated = Some self
    /\ resolved Mock.environ (fields "clir-sts-dolphin") "api_key"
         "NCP_CLOVASTUDIO_API_KEY" = Some (api_key self)
    /\ resolved Mock.environ (fields "clir-sts-dolphin") "api_gw_key"
         "NCP_APIGW_API_KEY" = Some (api_gw_key self)
    /\ resolved Mock.environ (fields "clir-sts-dolphin") "app_id"
         "NCP_EMB_APP_ID" = Some (app_id self)
    /\ model self ∈ recognized_models
    /\ fields "clir-sts-dolphin" !! "model" = Some (FStr (model self))
    /\ ncp_api_base self = default_ncp_api_base.
Proof.
  refine (validated_object Mock.environ (fields "clir-sts-dolphin") validated
            default_ncp_api_base _ _);
    vm_compute; reflexivity.
Defined.

Lemma environment_read_on_demand_witness :
  check_api_keys Mock.environ (fields "clir-sts-dolphin")
  = check_api_keys crowded (fields "clir-sts-dolphin").
Proof.
  refine (environment_read_on_demand Mock.environ crowded
            (fields "clir-sts-dolphin") _ _ _);
    vm_compute; intros E; try discriminate E; reflexivity.
Defined.

End InstancesMore.
